(** * USB PD Inverter firmware (ATtiny212/412): the sine table and the
    TCD overflow interrupt service routine of [USB_PD_Inverter.ino].

    The firmware keeps three globals ([SIN_ptr], [SIN_val], [cnt60]) and,
    once per timer cycle, stores the cached sine value and its negation into
    the low bytes of the two TCD compare-clear registers, advances the table
    pointer (twice on every fifth cycle when the 60Hz correction is selected)
    and reloads the cached value from the table.

    Integers are modelled as [Z] with the C wrap-around written out; the
    register file records the value last stored to each register. *)

From Stdlib Require Import ZArith List Bool Lia.
Import ListNotations.
Open Scope Z_scope.

(** ** Fixed-width unsigned integers *)

(** Conversion to [uint8_t] / [register8_t]. *)
Definition uint8 (z : Z) : Z := z mod 256.

(** Conversion to [uint16_t]. *)
Definition uint16 (z : Z) : Z := z mod 65536.

(** ** Pin assignments and pin macros *)

(** [enum {PA0, PA1, PA2, PA3, PA4, PA5, PA6, PA7}] *)
Definition PA0 : Z := 0.
Definition PA1 : Z := 1.
Definition PA2 : Z := 2.
Definition PA3 : Z := 3.
Definition PA4 : Z := 4.
Definition PA5 : Z := 5.
Definition PA6 : Z := 6.
Definition PA7 : Z := 7.

(** [#define PIN_FRQ PA3]: frequency selection switch. *)
Definition PIN_FRQ : Z := PA3.

(** [#define pinRead(x) (VPORTA.IN & (1<<(x)))]; the value of the volatile
    input register [VPORTA.IN] at the time of the read is an argument. *)
Definition pinRead (VPORTA_IN x : Z) : Z := Z.land VPORTA_IN (Z.shiftl 1 x).

(** ** Sine wave table (386 values for 50Hz) *)

(** [const uint8_t SIN[]] *)
Definition SIN : list Z := [
  0x80; 0x82; 0x84; 0x86; 0x88; 0x8a; 0x8c; 0x8e; 0x90; 0x92; 0x94; 0x96; 0x98; 0x9a; 0x9c; 0x9e;
  0xa0; 0xa2; 0xa4; 0xa6; 0xa8; 0xaa; 0xac; 0xae; 0xb0; 0xb2; 0xb4; 0xb6; 0xb8; 0xb9; 0xbb; 0xbd;
  0xbf; 0xc1; 0xc3; 0xc4; 0xc6; 0xc8; 0xc9; 0xcb; 0xcd; 0xce; 0xd0; 0xd2; 0xd3; 0xd5; 0xd6; 0xd8;
  0xd9; 0xdb; 0xdc; 0xde; 0xdf; 0xe0; 0xe2; 0xe3; 0xe4; 0xe6; 0xe7; 0xe8; 0xe9; 0xea; 0xeb; 0xed;
  0xee; 0xef; 0xf0; 0xf1; 0xf2; 0xf2; 0xf3; 0xf4; 0xf5; 0xf6; 0xf7; 0xf7; 0xf8; 0xf9; 0xf9; 0xfa;
  0xfa; 0xfb; 0xfb; 0xfc; 0xfc; 0xfd; 0xfd; 0xfd; 0xfe; 0xfe; 0xfe; 0xfe; 0xff; 0xff; 0xff; 0xff;
  0xff; 0xff; 0xff; 0xff; 0xff; 0xff; 0xfe; 0xfe; 0xfe; 0xfe; 0xfd; 0xfd; 0xfd; 0xfc; 0xfc; 0xfb;
  0xfb; 0xfa; 0xfa; 0xf9; 0xf9; 0xf8; 0xf7; 0xf7; 0xf6; 0xf5; 0xf4; 0xf3; 0xf2; 0xf2; 0xf1; 0xf0;
  0xef; 0xee; 0xed; 0xeb; 0xea; 0xe9; 0xe8; 0xe7; 0xe6; 0xe4; 0xe3; 0xe2; 0xe0; 0xdf; 0xde; 0xdc;
  0xdb; 0xd9; 0xd8; 0xd6; 0xd5; 0xd3; 0xd2; 0xd0; 0xce; 0xcd; 0xcb; 0xc9; 0xc8; 0xc6; 0xc4; 0xc3;
  0xc1; 0xbf; 0xbd; 0xbb; 0xb9; 0xb8; 0xb6; 0xb4; 0xb2; 0xb0; 0xae; 0xac; 0xaa; 0xa8; 0xa6; 0xa4;
  0xa2; 0xa0; 0x9e; 0x9c; 0x9a; 0x98; 0x96; 0x94; 0x92; 0x90; 0x8e; 0x8c; 0x8a; 0x88; 0x86; 0x84;
  0x82; 0x80; 0x7d; 0x7b; 0x79; 0x77; 0x75; 0x73; 0x71; 0x6f; 0x6d; 0x6b; 0x69; 0x67; 0x65; 0x63;
  0x61; 0x5f; 0x5d; 0x5b; 0x59; 0x57; 0x55; 0x53; 0x51; 0x4f; 0x4d; 0x4b; 0x49; 0x47; 0x46; 0x44;
  0x42; 0x40; 0x3e; 0x3c; 0x3b; 0x39; 0x37; 0x36; 0x34; 0x32; 0x31; 0x2f; 0x2d; 0x2c; 0x2a; 0x29;
  0x27; 0x26; 0x24; 0x23; 0x21; 0x20; 0x1f; 0x1d; 0x1c; 0x1b; 0x19; 0x18; 0x17; 0x16; 0x15; 0x14;
  0x12; 0x11; 0x10; 0x0f; 0x0e; 0x0d; 0x0d; 0x0c; 0x0b; 0x0a; 0x09; 0x08; 0x08; 0x07; 0x06; 0x06;
  0x05; 0x05; 0x04; 0x04; 0x03; 0x03; 0x02; 0x02; 0x02; 0x01; 0x01; 0x01; 0x01; 0x00; 0x00; 0x00;
  0x00; 0x00; 0x00; 0x00; 0x00; 0x00; 0x00; 0x01; 0x01; 0x01; 0x01; 0x02; 0x02; 0x02; 0x03; 0x03;
  0x04; 0x04; 0x05; 0x05; 0x06; 0x06; 0x07; 0x08; 0x08; 0x09; 0x0a; 0x0b; 0x0c; 0x0d; 0x0d; 0x0e;
  0x0f; 0x10; 0x11; 0x12; 0x14; 0x15; 0x16; 0x17; 0x18; 0x19; 0x1b; 0x1c; 0x1d; 0x1f; 0x20; 0x21;
  0x23; 0x24; 0x26; 0x27; 0x29; 0x2a; 0x2c; 0x2d; 0x2f; 0x31; 0x32; 0x34; 0x36; 0x37; 0x39; 0x3b;
  0x3c; 0x3e; 0x40; 0x42; 0x44; 0x46; 0x47; 0x49; 0x4b; 0x4d; 0x4f; 0x51; 0x53; 0x55; 0x57; 0x59;
  0x5b; 0x5d; 0x5f; 0x61; 0x63; 0x65; 0x67; 0x69; 0x6b; 0x6d; 0x6f; 0x71; 0x73; 0x75; 0x77; 0x79;
  0x7b; 0x7d
].

(** [sizeof(SIN)]: the elements are one byte wide. *)
Definition sizeof_SIN : Z := Z.of_nat (length SIN).

(** The array access [SIN[i]]; [None] stands for an access outside the
    array, which C leaves undefined. *)
Definition SIN_at (i : Z) : option Z :=
  if i <? 0 then None else nth_error SIN (Z.to_nat i).

(** ** Machine state *)

(** The registers of [TCD0] that the firmware touches.  The 12-bit compare
    registers [CMPACLR] and [CMPBCLR] are split into the low byte
    ([CMPACLRL], [CMPBCLRL]), which the interrupt routine stores to, and the
    high byte. *)
Record TCD_t : Type := mkTCD {
  CTRLA     : Z;
  CTRLB     : Z;
  CTRLE     : Z;
  INTCTRL   : Z;
  INTFLAGS  : Z;
  FAULTCTRL : Z;
  CMPASET   : Z;
  CMPACLRL  : Z;
  CMPACLRH  : Z;
  CMPBSET   : Z;
  CMPBCLRL  : Z;
  CMPBCLRH  : Z
}.

(** The three globals of the firmware and the timer's register file. *)
Record machine : Type := mkMachine {
  SIN_ptr : Z;      (* uint16_t: sine wave table pointer *)
  SIN_val : Z;      (* uint8_t:  sine wave value *)
  cnt60   : Z;      (* uint8_t:  60Hz correction counter *)
  TCD0    : TCD_t
}.

(** Stores to single registers of [TCD0]. *)
Definition set_CMPACLRL (v : Z) (t : TCD_t) : TCD_t :=
  mkTCD (CTRLA t) (CTRLB t) (CTRLE t) (INTCTRL t) (INTFLAGS t) (FAULTCTRL t)
        (CMPASET t) v (CMPACLRH t) (CMPBSET t) (CMPBCLRL t) (CMPBCLRH t).

Definition set_CMPBCLRL (v : Z) (t : TCD_t) : TCD_t :=
  mkTCD (CTRLA t) (CTRLB t) (CTRLE t) (INTCTRL t) (INTFLAGS t) (FAULTCTRL t)
        (CMPASET t) (CMPACLRL t) (CMPACLRH t) (CMPBSET t) v (CMPBCLRH t).

Definition set_CTRLE (v : Z) (t : TCD_t) : TCD_t :=
  mkTCD (CTRLA t) (CTRLB t) v (INTCTRL t) (INTFLAGS t) (FAULTCTRL t)
        (CMPASET t) (CMPACLRL t) (CMPACLRH t) (CMPBSET t) (CMPBCLRL t)
        (CMPBCLRH t).

Definition set_INTFLAGS (v : Z) (t : TCD_t) : TCD_t :=
  mkTCD (CTRLA t) (CTRLB t) (CTRLE t) (INTCTRL t) v (FAULTCTRL t)
        (CMPASET t) (CMPACLRL t) (CMPACLRH t) (CMPBSET t) (CMPBCLRL t)
        (CMPBCLRH t).

(** The globals as initialised at their definition:
    [SIN_ptr = 0], [SIN_val = 0x80], [cnt60 = 5].  The register file at the
    first interrupt is whatever the set-up left there. *)
Definition power_on (t : TCD_t) : machine :=
  mkMachine 0 0x80 5 t.

(** A register file holding the compare values that [main] stores before it
    enables the timer (dead times [0x03], on-times [0x80] and [0x7f]); the
    control registers, whose values come from the device header, are 0. *)
Definition tcd_after_setup : TCD_t :=
  mkTCD 0 0 0 0 0 0 0x03 0x80 0 0x03 0x7f 0.

(** ** The interrupt service routine *)

(** [if(++SIN_ptr >= sizeof(SIN)) SIN_ptr = 0;] as a function of the
    pointer: the pre-increment wraps at 16 bits. *)
Definition next_SIN_ptr (p : Z) : Z :=
  let p' := uint16 (p + 1) in
  if sizeof_SIN <=? p' then 0 else p'.

(** [!pinRead(PIN_FRQ)]: the 60Hz correction is selected when the pin reads
    low. *)
Definition sel60 (VPORTA_IN : Z) : bool := pinRead VPORTA_IN PIN_FRQ =? 0.

(** ** Properties of the table, as boolean checks *)

(** Sum of the sample at [i] and the sample half a period later. *)
Definition SIN_sum (i : Z) : option Z :=
  match SIN_at i, SIN_at ((i + sizeof_SIN / 2) mod sizeof_SIN) with
  | Some a, Some b => Some (a + b)
  | _, _ => None
  end.

(** The indices [0 .. n-1]. *)
Definition indices (n : nat) : list Z := map Z.of_nat (seq 0 n).

(** Phase-complementary symmetry at index [i]. *)
Definition phase_complementary (i : Z) : Prop := SIN_sum i = Some 255.

Section Firmware.

(** Bit masks of the device header [avr/io.h], which is not part of the
    firmware's sources. *)
Variable TCD_SYNCEOC_bm : Z.
Variable TCD_OVF_bm : Z.

(** [ISR(TCD0_OVF_vect)], statement by statement.  [VPORTA_IN] is the
    value of the input register at this invocation. *)
Definition ISR (VPORTA_IN : Z) (m : machine) : option machine :=
  (* TCD0.CMPACLRL =  SIN_val; *)
  let t := set_CMPACLRL (SIN_val m) (TCD0 m) in
  (* TCD0.CMPBCLRL = -SIN_val; *)
  let t := set_CMPBCLRL (uint8 (- SIN_val m)) t in
  (* TCD0.CTRLE    = TCD_SYNCEOC_bm; *)
  let t := set_CTRLE TCD_SYNCEOC_bm t in
  (* TCD0.INTFLAGS = TCD_OVF_bm; *)
  let t := set_INTFLAGS TCD_OVF_bm t in
  (* if(++SIN_ptr >= sizeof(SIN)) SIN_ptr = 0; *)
  let p := next_SIN_ptr (SIN_ptr m) in
  (* if(!pinRead(PIN_FRQ) && !--cnt60) { ... } *)
  let '(p, c) :=
    if sel60 VPORTA_IN then
      let c := uint8 (cnt60 m - 1) in
      if c =? 0 then
        (* if(++SIN_ptr >= sizeof(SIN)) SIN_ptr = 0;  cnt60 = 5; *)
        (next_SIN_ptr p, 5)
      else (p, c)
    else (p, cnt60 m) in
  (* SIN_val = SIN[SIN_ptr]; *)
  match SIN_at p with
  | Some v => Some (mkMachine p v c t)
  | None => None
  end.

(** Successive invocations, one per timer cycle, each with its own reading
    of the input register. *)
Fixpoint run (pins : list Z) (m : machine) : option machine :=
  match pins with
  | [] => Some m
  | x :: pins' =>
      match ISR x m with
      | Some m' => run pins' m'
      | None => None
      end
  end.

(** The states the firmware can be in between two interrupts. *)
Inductive reachable : machine -> Prop :=
| reach_power_on : forall t, reachable (power_on t)
| reach_ISR : forall x m m',
    reachable m -> ISR x m = Some m' -> reachable m'.

(** The registers after the four stores of the routine. *)
Definition ISR_stores (m : machine) : TCD_t :=
  mkTCD (CTRLA (TCD0 m)) (CTRLB (TCD0 m)) TCD_SYNCEOC_bm (INTCTRL (TCD0 m))
        TCD_OVF_bm (FAULTCTRL (TCD0 m)) (CMPASET (TCD0 m)) (SIN_val m)
        (CMPACLRH (TCD0 m)) (CMPBSET (TCD0 m)) (uint8 (- SIN_val m))
        (CMPBCLRH (TCD0 m)).

(** ** Set-up: the pin macros and [main] *)

(** [#define PIN_WOA PA6] and [#define PIN_WOB PA7]: H-Bridge control. *)
Definition PIN_WOA : Z := PA6.
Definition PIN_WOB : Z := PA7.

(** Further constants of the device header [avr/io.h]. *)
Variable TCD_WGMODE_FOURRAMP_gc : Z.
Variable CCP_IOREG_gc : Z.
Variable TCD_CMPAEN_bm : Z.
Variable TCD_CMPBEN_bm : Z.
Variable TCD_ENRDY_bm : Z.
Variable TCD_CLKSEL_20MHZ_gc : Z.
Variable TCD_CNTPRES_DIV4_gc : Z.
Variable TCD_ENABLE_bm : Z.
Variable PORT_PULLUPEN_bm : Z.

(** The microcontroller as [main] sees it: the globals and the timer, the
    clock controller's [MCLKCTRLB], the configuration change protection
    register, the direction register of port A, the eight pin control
    registers [PIN0CTRL .. PIN7CTRL] of port A, and the global interrupt
    flag. *)
Record board : Type := mkBoard {
  mcu               : machine;
  CLKCTRL_MCLKCTRLB : Z;
  CPU_CCP           : Z;
  VPORTA_DIR        : Z;
  PORTA_PINnCTRL    : list Z;
  SREG_I            : bool
}.

(** [#define pinOutput(x) VPORTA.DIR |= (1<<(x))], on the value of the
    direction register. *)
Definition pinOutput (x : Z) (dir : Z) : Z :=
  uint8 (Z.lor dir (Z.shiftl 1 x)).

(** Replace the element at position [n] of a register array. *)
Fixpoint store_at (n : nat) (v : Z) (l : list Z) : list Z :=
  match l, n with
  | [], _ => []
  | _ :: l', O => v :: l'
  | a :: l', S n' => a :: store_at n' v l'
  end.

(** [#define pinPullup(x) (&PORTA.PIN0CTRL)[x] |= PORT_PULLUPEN_bm], on the
    array of pin control registers; [None] stands for an [x] that is not one
    of the eight pins. *)
Definition pinPullup (x : Z) (pinctrl : list Z) : option (list Z) :=
  if x <? 0 then None else
  match nth_error pinctrl (Z.to_nat x) with
  | Some v => Some (store_at (Z.to_nat x) (uint8 (Z.lor v PORT_PULLUPEN_bm)) pinctrl)
  | None => None
  end.

(** [while(~TCD0.STATUS & TCD_ENRDY_bm);] over the successive readings of
    the status register; [None] when the readings end with the loop still
    waiting. *)
Fixpoint wait_ENRDY (STATUS : list Z) : option (list Z) :=
  match STATUS with
  | [] => None
  | s :: rest =>
      if Z.land (Z.lnot s) TCD_ENRDY_bm =? 0 then Some rest
      else wait_ENRDY rest
  end.

(** Stores of [main] to the timer.  The compare registers are 16 bits wide:
    a store to [CMPACLR] or [CMPBCLR] sets the low and the high byte. *)
Definition main_TCD0_before_wait (t : TCD_t) : TCD_t :=
  (* TCD0.CTRLB = TCD_WGMODE_FOURRAMP_gc; *)
  let ctrlb := uint8 TCD_WGMODE_FOURRAMP_gc in
  (* TCD0.CMPASET = 0x03; *)
  let cmpaset := uint16 0x03 in
  (* TCD0.CMPACLR = 0x80; *)
  let cmpaclr := uint16 0x80 in
  (* TCD0.CMPBSET = 0x03; *)
  let cmpbset := uint16 0x03 in
  (* TCD0.CMPBCLR = 0x7f; *)
  let cmpbclr := uint16 0x7f in
  (* TCD0.FAULTCTRL = TCD_CMPAEN_bm | TCD_CMPBEN_bm; *)
  let faultctrl := uint8 (Z.lor TCD_CMPAEN_bm TCD_CMPBEN_bm) in
  (* TCD0.INTCTRL = TCD_OVF_bm; *)
  let intctrl := uint8 TCD_OVF_bm in
  mkTCD (CTRLA t) ctrlb (CTRLE t) intctrl (INTFLAGS t) faultctrl
        cmpaset (cmpaclr mod 256) (cmpaclr / 256)
        cmpbset (cmpbclr mod 256) (cmpbclr / 256).

(** [TCD0.CTRLA = TCD_CLKSEL_20MHZ_gc | TCD_CNTPRES_DIV4_gc | TCD_ENABLE_bm;] *)
Definition main_TCD0_enable (t : TCD_t) : TCD_t :=
  mkTCD (uint8 (Z.lor (Z.lor TCD_CLKSEL_20MHZ_gc TCD_CNTPRES_DIV4_gc)
                      TCD_ENABLE_bm))
        (CTRLB t) (CTRLE t) (INTCTRL t) (INTFLAGS t) (FAULTCTRL t)
        (CMPASET t) (CMPACLRL t) (CMPACLRH t)
        (CMPBSET t) (CMPBCLRL t) (CMPBCLRH t).

(** [main], up to the final [while(1);] in which it stays: the state in
    which the firmware idles between interrupts.  [STATUS] are the
    successive readings of [TCD0.STATUS]; the result is [None] when they end
    before the timer reports ready, the timer then not being enabled.
    [_PROTECTED_WRITE(reg, v)] of the toolchain stores the I/O signature to
    the protection register and then [v] to [reg], as [main] itself does by
    hand for [FAULTCTRL]. *)
Definition main (STATUS : list Z) (b : board) : option board :=
  (* _PROTECTED_WRITE(CLKCTRL.MCLKCTRLB, 0); *)
  let ccp := uint8 CCP_IOREG_gc in
  let mclkctrlb := uint8 0 in
  (* pinOutput(PIN_WOA); pinOutput(PIN_WOB); *)
  let dir := pinOutput PIN_WOB (pinOutput PIN_WOA (VPORTA_DIR b)) in
  (* pinPullup(PIN_FRQ); *)
  match pinPullup PIN_FRQ (PORTA_PINnCTRL b) with
  | None => None
  | Some pinctrl =>
      (* TCD0.CTRLB = ...; ... CPU_CCP = CCP_IOREG_gc; ... TCD0.INTCTRL = ...; *)
      let t := main_TCD0_before_wait (TCD0 (mcu b)) in
      let ccp := uint8 CCP_IOREG_gc in
      (* while(~TCD0.STATUS & TCD_ENRDY_bm); *)
      match wait_ENRDY STATUS with
      | None => None
      | Some _ =>
          (* TCD0.CTRLA = ...; *)
          let t := main_TCD0_enable t in
          (* sei(); *)
          Some (mkBoard
                  (mkMachine (SIN_ptr (mcu b)) (SIN_val (mcu b))
                             (cnt60 (mcu b)) t)
                  mclkctrlb ccp dir pinctrl true)
      end
  end.

(** The firmware as a whole: [main] sets the board up; from then on every
    timer overflow runs the interrupt routine, with its reading of the
    input register. *)
Definition firmware (STATUS pins : list Z) (b : board) : option machine :=
  match main STATUS b with
  | Some b' => run pins (mcu b')
  | None => None
  end.

(** ** Quantities used in the statements *)

(** Number of invocations in which the 60Hz correction is selected. *)
Definition count60 (pins : list Z) : Z :=
  Z.of_nat (length (filter sel60 pins)).

(** The 12-bit compare-clear values assembled from their bytes. *)
Definition CMPACLR (t : TCD_t) : Z := CMPACLRH t * 256 + CMPACLRL t.
Definition CMPBCLR (t : TCD_t) : Z := CMPBCLRH t * 256 + CMPBCLRL t.

(** Length of a timer cycle in timer clocks, by the formula given with the
    table: [CMPASET + CMPACLR + CMPBSET + CMPBCLR + 4]. *)
Definition TCD_cycle_length (t : TCD_t) : Z :=
  CMPASET t + CMPACLR t + CMPBSET t + CMPBCLR t + 4.

(** A board just after reset, for concrete instances: the globals as
    initialised, all modelled registers 0, interrupts disabled. *)
Definition board_at_reset : board :=
  mkBoard (power_on (mkTCD 0 0 0 0 0 0 0 0 0 0 0 0)) 0 0 0
          [0; 0; 0; 0; 0; 0; 0; 0] false.

(** ** Auxiliary facts *)

Lemma sizeof_SIN_eq : sizeof_SIN = 386.
Proof. reflexivity. Qed.

Lemma indices_forallb (P : Z -> bool) (n : nat) :
  forallb P (indices n) = true ->
  forall i, 0 <= i < Z.of_nat n -> P i = true.
Proof.
  intros H i Hi.
  rewrite forallb_forall in H. apply H.
  unfold indices. apply in_map_iff.
  exists (Z.to_nat i). split; [lia|].
  apply in_seq. lia.
Qed.

Lemma SIN_at_defined i :
  0 <= i < 386 -> exists v, SIN_at i = Some v /\ 0 <= v <= 255.
Proof.
  intros Hi.
  pose (P := fun i => match SIN_at i with
                      | Some v => (0 <=? v) && (v <=? 255)
                      | None => false
                      end).
  assert (HP : P i = true).
  { apply (indices_forallb P 386); [vm_compute; reflexivity | lia]. }
  unfold P in HP. destruct (SIN_at i) as [v|]; [|discriminate].
  exists v. split; [reflexivity | lia].
Qed.

Lemma next_SIN_ptr_range p : 0 <= next_SIN_ptr p < 386.
Proof.
  unfold next_SIN_ptr, uint16. rewrite sizeof_SIN_eq.
  pose proof (Z.mod_pos_bound (p + 1) 65536 ltac:(lia)).
  destruct (386 <=? (p + 1) mod 65536) eqn:E; lia.
Qed.

Lemma next_SIN_ptr_mod p :
  0 <= p < 386 -> next_SIN_ptr p = (p + 1) mod 386.
Proof.
  intros Hp. unfold next_SIN_ptr, uint16. rewrite sizeof_SIN_eq.
  rewrite (Z.mod_small (p + 1) 65536) by lia.
  destruct (386 <=? p + 1) eqn:E.
  - assert (p = 385) by lia. subst p. reflexivity.
  - rewrite Z.mod_small by lia. reflexivity.
Qed.

Lemma pinRead_bit x : Z.testbit (pinRead x PIN_FRQ) 3 = Z.testbit x 3.
Proof.
  unfold pinRead. rewrite Z.land_spec.
  replace (Z.testbit (Z.shiftl 1 PIN_FRQ) 3) with true by reflexivity.
  apply andb_true_r.
Qed.

Lemma pinRead_other_bits x n :
  0 <= n -> n <> 3 -> Z.testbit (pinRead x PIN_FRQ) n = false.
Proof.
  intros Hn Hne. unfold pinRead. rewrite Z.land_spec.
  replace (Z.shiftl 1 PIN_FRQ) with (2 ^ 3) by reflexivity.
  rewrite Z.pow2_bits_false by lia. apply andb_false_r.
Qed.

(** The 60Hz correction is selected exactly when bit 3 of the input
    register (the level of pin PA3) is low. *)
Lemma sel60_testbit x : sel60 x = negb (Z.testbit x 3).
Proof.
  unfold sel60.
  destruct (Z.testbit x 3) eqn:E; simpl.
  - apply Z.eqb_neq. intros H.
    pose proof (pinRead_bit x) as Hb. rewrite H, E in Hb. discriminate.
  - apply Z.eqb_eq. apply Z.bits_inj'. intros n Hn.
    rewrite Z.bits_0.
    destruct (Z.eq_dec n 3) as [->|Hne].
    + rewrite pinRead_bit. exact E.
    + apply pinRead_other_bits; assumption.
Qed.

(** What one invocation does, from any state: it returns, the pointer ends
    inside the table, the cached value is the entry it points to, and the
    new pointer and counter are as the two conditionals prescribe. *)
Lemma ISR_effect x m :
  exists m',
    ISR x m = Some m' /\
    0 <= SIN_ptr m' < 386 /\
    SIN_at (SIN_ptr m') = Some (SIN_val m') /\
    0 <= SIN_val m' <= 255 /\
    TCD0 m' = ISR_stores m /\
    SIN_ptr m' =
      (if sel60 x && (uint8 (cnt60 m - 1) =? 0)
       then next_SIN_ptr (next_SIN_ptr (SIN_ptr m))
       else next_SIN_ptr (SIN_ptr m)) /\
    cnt60 m' =
      (if sel60 x
       then if uint8 (cnt60 m - 1) =? 0 then 5 else uint8 (cnt60 m - 1)
       else cnt60 m).
Proof.
  unfold ISR.
  destruct (sel60 x); [destruct (uint8 (cnt60 m - 1) =? 0)|]; simpl andb; cbv iota.
  - destruct (SIN_at_defined _ (next_SIN_ptr_range (next_SIN_ptr (SIN_ptr m))))
      as (v & Hv & Hr).
    rewrite Hv. eexists. split; [reflexivity|]. simpl.
    repeat split; try apply next_SIN_ptr_range; try assumption; lia.
  - destruct (SIN_at_defined _ (next_SIN_ptr_range (SIN_ptr m))) as (v & Hv & Hr).
    rewrite Hv. eexists. split; [reflexivity|]. simpl.
    repeat split; try apply next_SIN_ptr_range; try assumption; lia.
  - destruct (SIN_at_defined _ (next_SIN_ptr_range (SIN_ptr m))) as (v & Hv & Hr).
    rewrite Hv. eexists. split; [reflexivity|]. simpl.
    repeat split; try apply next_SIN_ptr_range; try assumption; lia.
Qed.

(** One invocation with the correction selected, from a state whose counter
    is in its working range [1..5]. *)
Lemma ISR_sel60 x m :
  sel60 x = true -> 0 <= SIN_ptr m < 386 -> 1 <= cnt60 m <= 5 ->
  exists m',
    ISR x m = Some m' /\
    SIN_ptr m' = (SIN_ptr m + (if cnt60 m =? 1 then 2 else 1)) mod 386 /\
    cnt60 m' = (if cnt60 m =? 1 then 5 else cnt60 m - 1).
Proof.
  intros Hx Hp Hc.
  destruct (ISR_effect x m) as (m' & HI & Hr & _ & _ & _ & Hp' & Hc').
  exists m'. split; [exact HI|].
  rewrite Hx in Hp', Hc'. simpl andb in Hp'.
  unfold uint8 in Hp', Hc'. rewrite (Z.mod_small (cnt60 m - 1) 256) in Hp', Hc' by lia.
  destruct (cnt60 m =? 1) eqn:E1.
  - apply Z.eqb_eq in E1.
    replace (cnt60 m - 1 =? 0) with true in Hp', Hc' by (symmetry; apply Z.eqb_eq; lia).
    split; [|exact Hc'].
    rewrite Hp', (next_SIN_ptr_mod (SIN_ptr m)) by exact Hp.
    rewrite next_SIN_ptr_mod by (apply Z.mod_pos_bound; lia).
    rewrite Z.add_mod_idemp_l by lia. f_equal. lia.
  - apply Z.eqb_neq in E1.
    replace (cnt60 m - 1 =? 0) with false in Hp', Hc' by (symmetry; apply Z.eqb_neq; lia).
    split; [|exact Hc'].
    rewrite Hp'. apply next_SIN_ptr_mod. exact Hp.
Qed.

(** One invocation with the correction not selected. *)
Lemma ISR_sel50 x m :
  sel60 x = false -> 0 <= SIN_ptr m < 386 ->
  exists m',
    ISR x m = Some m' /\
    SIN_ptr m' = (SIN_ptr m + 1) mod 386 /\
    cnt60 m' = cnt60 m.
Proof.
  intros Hx Hp.
  destruct (ISR_effect x m) as (m' & HI & Hr & _ & _ & _ & Hp' & Hc').
  exists m'. split; [exact HI|].
  rewrite Hx in Hp', Hc'. simpl andb in Hp'.
  split; [|exact Hc'].
  rewrite Hp'. apply next_SIN_ptr_mod. exact Hp.
Qed.

(** [n] invocations with the correction selected throughout: the pointer
    has moved by [n] plus the number of times the counter ran out. *)
Lemma run_sel60 pins : forall m,
  Forall (fun x => sel60 x = true) pins ->
  0 <= SIN_ptr m < 386 -> 1 <= cnt60 m <= 5 ->
  exists m',
    run pins m = Some m' /\
    SIN_ptr m' =
      (SIN_ptr m + Z.of_nat (length pins)
       + (Z.of_nat (length pins) + 5 - cnt60 m) / 5) mod 386 /\
    cnt60 m' = 5 - (Z.of_nat (length pins) + 5 - cnt60 m) mod 5.
Proof.
  induction pins as [|x pins IH]; intros m Hall Hp Hc.
  - exists m. split; [reflexivity|]. simpl length. simpl Z.of_nat.
    rewrite (Z.div_small (0 + 5 - cnt60 m)) by lia.
    rewrite (Z.mod_small (0 + 5 - cnt60 m)) by lia.
    rewrite (Z.mod_small (SIN_ptr m + 0 + 0)) by lia. lia.
  - inversion Hall as [|? ? Hx Hall']; subst.
    destruct (ISR_sel60 x m Hx Hp Hc) as (m1 & HI & Hp1 & Hc1).
    assert (Hp1r : 0 <= SIN_ptr m1 < 386)
      by (rewrite Hp1; apply Z.mod_pos_bound; lia).
    assert (Hc1r : 1 <= cnt60 m1 <= 5)
      by (rewrite Hc1; destruct (Z.eqb_spec (cnt60 m) 1); lia).
    destruct (IH m1 Hall' Hp1r Hc1r) as (m' & HR & Hp' & Hc').
    exists m'. simpl run. rewrite HI. split; [exact HR|].
    rewrite Hp', Hc', Hp1, Hc1.
    replace (Z.of_nat (length (x :: pins))) with (Z.of_nat (length pins) + 1)
      by (simpl length; lia).
    set (n := Z.of_nat (length pins)).
    rewrite <- Z.add_assoc, Z.add_mod_idemp_l by lia.
    destruct (cnt60 m =? 1) eqn:E1.
    + apply Z.eqb_eq in E1. rewrite E1.
      replace (n + 1 + 5 - 1) with (n + 5 - 5 + 1 * 5) by lia.
      rewrite Z.div_add, Z.mod_add by lia.
      split; [f_equal; lia | reflexivity].
    + replace (n + 1 + 5 - cnt60 m) with (n + 5 - (cnt60 m - 1)) by lia.
      split; [f_equal; lia | reflexivity].
Qed.

(** [n] invocations with the correction not selected. *)
Lemma run_sel50 pins : forall m,
  Forall (fun x => sel60 x = false) pins ->
  0 <= SIN_ptr m < 386 ->
  exists m',
    run pins m = Some m' /\
    SIN_ptr m' = (SIN_ptr m + Z.of_nat (length pins)) mod 386 /\
    cnt60 m' = cnt60 m.
Proof.
  induction pins as [|x pins IH]; intros m Hall Hp.
  - exists m. split; [reflexivity|]. simpl length. simpl Z.of_nat.
    rewrite Z.add_0_r, Z.mod_small by lia. split; reflexivity.
  - inversion Hall as [|? ? Hx Hall']; subst.
    destruct (ISR_sel50 x m Hx Hp) as (m1 & HI & Hp1 & Hc1).
    assert (Hp1r : 0 <= SIN_ptr m1 < 386)
      by (rewrite Hp1; apply Z.mod_pos_bound; lia).
    destruct (IH m1 Hall' Hp1r) as (m' & HR & Hp' & Hc').
    exists m'. simpl run. rewrite HI. split; [exact HR|].
    rewrite Hp', Hc', Hp1, Hc1.
    rewrite Z.add_mod_idemp_l by lia.
    split; [f_equal; simpl length; lia | reflexivity].
Qed.

(** Any sequence of invocations returns, from any state. *)
Lemma run_defined pins : forall m, exists m', run pins m = Some m'.
Proof.
  induction pins as [|x pins IH]; intros m.
  - exists m. reflexivity.
  - destruct (ISR_effect x m) as (m1 & HI & _).
    destruct (IH m1) as (m' & HR).
    exists m'. simpl. rewrite HI. exact HR.
Qed.

(** What holds of every reachable state. *)
Lemma reachable_inv m :
  reachable m ->
  0 <= SIN_ptr m < 386 /\
  SIN_at (SIN_ptr m) = Some (SIN_val m) /\
  0 <= SIN_val m <= 255.
Proof.
  intros H. destruct H as [t | x m m' _ HI].
  - simpl. repeat split; try reflexivity; try lia; discriminate.
  - destruct (ISR_effect x m) as (m1 & HI1 & Hr & Hv & Hb & _).
    rewrite HI in HI1. injection HI1 as <-. repeat split; try assumption; lia.
Qed.

(** The secondary register receives the two's complement of the primary
    one, which is never [255] minus it. *)
Lemma secondary_is_negation x m :
  0 <= SIN_val m <= 255 ->
  exists m',
    ISR x m = Some m' /\
    CMPBCLRL (TCD0 m') = (256 - CMPACLRL (TCD0 m')) mod 256 /\
    CMPBCLRL (TCD0 m') <> 255 - CMPACLRL (TCD0 m').
Proof.
  intros Hv.
  destruct (ISR_effect x m) as (m' & HI & _ & _ & _ & Ht & _).
  exists m'. split; [exact HI|]. rewrite Ht.
  unfold ISR_stores, uint8. cbn [CMPBCLRL CMPACLRL].
  replace (- SIN_val m) with (256 - SIN_val m + (-1) * 256) by lia.
  rewrite Z.mod_add by lia. split; [reflexivity|].
  destruct (Z.eq_dec (SIN_val m) 0) as [E|E].
  - rewrite E. discriminate.
  - rewrite Z.mod_small by lia. lia.
Qed.

(** ** The table *)

(** C1, as amended: for every index [i] in [0, 386) other than [0] and
    [193], the sample at [i] and the sample half a period later,
    [SIN[(i + 193) mod 386]], add up to 255; at [i = 0] and [i = 193] both
    samples are [0x80] and the sum is 256. *)
Theorem SIN_phase_sum i :
  0 <= i < 386 ->
  (i <> 0 -> i <> 193 -> phase_complementary i) /\
  (i = 0 \/ i = 193 -> SIN_sum i = Some 256 /\ SIN_at i = Some 0x80).
Proof.
  intros Hi.
  pose (P := fun i =>
     match SIN_sum i with
     | Some s => if (i =? 0) || (i =? 193)
                 then (s =? 256) && (match SIN_at i with
                                     | Some v => v =? 0x80
                                     | None => false
                                     end)
                 else s =? 255
     | None => false
     end).
  assert (HP : P i = true).
  { apply (indices_forallb P 386); [vm_compute; reflexivity | lia]. }
  unfold P in HP. unfold phase_complementary.
  destruct (SIN_sum i) as [s|]; [|discriminate].
  destruct (Z.eqb_spec i 0) as [E0|E0]; destruct (Z.eqb_spec i 193) as [E1|E1];
    simpl orb in HP; cbv iota in HP.
  1-3: apply andb_true_iff in HP; destruct HP as [Hs Hv];
       apply Z.eqb_eq in Hs;
       destruct (SIN_at i) as [v|]; [apply Z.eqb_eq in Hv | discriminate];
       subst; split; [intros; contradiction | intros _; split; reflexivity].
  apply Z.eqb_eq in HP. subst s.
  split; [reflexivity | intros [?|?]; contradiction].
Qed.

(** ** The generator state at start-up *)

(** C7: at start-up the table pointer is 0, the cached sample is the
    mid-scale value [0x80], which is the table's entry at index 0, and the
    60Hz correction counter is at its reload value 5. *)
Theorem power_on_state t :
  SIN_ptr (power_on t) = 0 /\
  SIN_val (power_on t) = 0x80 /\
  cnt60 (power_on t) = 5 /\
  SIN_at 0 = Some (SIN_val (power_on t)) /\
  forall x m, sel60 x = true -> cnt60 m = 1 ->
    exists m', ISR x m = Some m' /\ cnt60 m' = cnt60 (power_on t).
Proof.
  repeat split.
  intros x m Hx Hc.
  destruct (ISR_effect x m) as (m' & HI & _ & _ & _ & _ & _ & Hc').
  exists m'. split; [exact HI|].
  rewrite Hx, Hc in Hc'. exact Hc'.
Qed.

(** ** The interrupt service routine *)

(** C2, evaluated at the first invocation after start-up: the primary
    register receives [0x80] and the secondary register receives [0x80] as
    well, the two's complement of the cached sample, which is not 255 minus
    the primary value ([0x7f]). *)
Theorem secondary_at_power_on x t :
  exists m',
    ISR x (power_on t) = Some m' /\
    CMPACLRL (TCD0 m') = 0x80 /\
    CMPBCLRL (TCD0 m') = 0x80 /\
    CMPBCLRL (TCD0 m') <> 255 - CMPACLRL (TCD0 m').
Proof.
  destruct (ISR_effect x (power_on t)) as (m' & HI & _ & _ & _ & Ht & _).
  exists m'. split; [exact HI|]. rewrite Ht.
  unfold ISR_stores. cbn [CMPBCLRL CMPACLRL power_on SIN_val].
  repeat split. discriminate.
Qed.

(** At the trough of the wave the cached sample is 0 and both registers
    receive 0. *)
Lemma secondary_at_trough x m :
  SIN_val m = 0 ->
  exists m',
    ISR x m = Some m' /\
    CMPACLRL (TCD0 m') = 0 /\ CMPBCLRL (TCD0 m') = 0.
Proof.
  intros Hv.
  destruct (ISR_effect x m) as (m' & HI & _ & _ & _ & Ht & _).
  exists m'. split; [exact HI|]. rewrite Ht.
  unfold ISR_stores. cbn [CMPBCLRL CMPACLRL]. rewrite Hv.
  split; reflexivity.
Qed.

(** C3: with the 60Hz correction selected at every invocation and the
    counter starting at 5, the pointer after [n] invocations has moved by
    [n + n / 5] positions modulo 386 (one extra step at every fifth
    invocation, after which the counter is back at 5); after 386 invocations
    it has moved by 463 positions modulo 386. *)
Theorem skip_mode_advance pins m :
  Forall (fun x => sel60 x = true) pins ->
  0 <= SIN_ptr m < 386 ->
  cnt60 m = 5 ->
  exists m',
    run pins m = Some m' /\
    SIN_ptr m' =
      (SIN_ptr m + Z.of_nat (length pins) + Z.of_nat (length pins) / 5)
      mod 386 /\
    cnt60 m' = 5 - Z.of_nat (length pins) mod 5 /\
    (length pins = 386%nat ->
     SIN_ptr m' = (SIN_ptr m + (386 + 386 / 5)) mod 386 /\
     SIN_ptr m' = (SIN_ptr m + 463) mod 386).
Proof.
  intros Hall Hp Hc.
  destruct (run_sel60 pins m Hall Hp ltac:(lia)) as (m' & HR & Hp' & Hc').
  exists m'. split; [exact HR|].
  rewrite Hc in Hp', Hc'.
  replace (Z.of_nat (length pins) + 5 - 5) with (Z.of_nat (length pins))
    in Hp', Hc' by lia.
  split; [exact Hp'|]. split; [exact Hc'|].
  intros Hlen. rewrite Hp', Hlen.
  change (Z.of_nat 386) with 386. change (386 / 5) with 77.
  split; f_equal; lia.
Qed.

(** C4: with the correction never selected, an invocation at pointer 385
    wraps to 0 and at any other pointer moves to the next index; starting
    from pointer 0, the pointer after [k < 386] invocations is [k] and after
    exactly 386 invocations it is 0 again. *)
Theorem base_advance_period :
  (forall x m, sel60 x = false -> 0 <= SIN_ptr m < 386 ->
     exists m',
       ISR x m = Some m' /\
       SIN_ptr m' = (if SIN_ptr m =? 385 then 0 else SIN_ptr m + 1)) /\
  (forall pins m, Forall (fun x => sel60 x = false) pins -> SIN_ptr m = 0 ->
     exists m',
       run pins m = Some m' /\
       SIN_ptr m' = Z.of_nat (length pins) mod 386 /\
       ((length pins < 386)%nat -> SIN_ptr m' = Z.of_nat (length pins)) /\
       (length pins = 386%nat -> SIN_ptr m' = 0)).
Proof.
  split.
  - intros x m Hx Hp.
    destruct (ISR_sel50 x m Hx Hp) as (m' & HI & Hp' & _).
    exists m'. split; [exact HI|]. rewrite Hp'.
    destruct (Z.eqb_spec (SIN_ptr m) 385) as [E|E].
    + rewrite E. reflexivity.
    + apply Z.mod_small. lia.
  - intros pins m Hall Hp.
    destruct (run_sel50 pins m Hall ltac:(lia)) as (m' & HR & Hp' & _).
    exists m'. split; [exact HR|].
    rewrite Hp in Hp'. rewrite Z.add_0_l in Hp'.
    split; [exact Hp'|]. split.
    + intros Hlt. rewrite Hp'. apply Z.mod_small. lia.
    + intros Hlen. rewrite Hp', Hlen. reflexivity.
Qed.

(** C5: the cached sample is the table entry at the pointer at start-up,
    and after every invocation, from whatever state it starts, the cached
    sample is again the table entry at the (once or twice advanced)
    pointer. *)
Theorem cached_sample_invariant :
  (forall t, SIN_at (SIN_ptr (power_on t)) = Some (SIN_val (power_on t))) /\
  (forall x m, exists m',
     ISR x m = Some m' /\ SIN_at (SIN_ptr m') = Some (SIN_val m')).
Proof.
  split.
  - intros t. reflexivity.
  - intros x m.
    destruct (ISR_effect x m) as (m' & HI & _ & Hv & _).
    exists m'. split; assumption.
Qed.

(** C6: in every reachable state the pointer is inside the table, and for
    every reading of the input register the routine returns a state (the
    table access is never out of range) whose pointer is inside the table
    again. *)
Theorem ISR_never_fails m :
  reachable m ->
  0 <= SIN_ptr m < 386 /\
  forall x, exists m',
    ISR x m = Some m' /\
    0 <= SIN_ptr m' < 386 /\
    (exists v, SIN_at (SIN_ptr m') = Some v) /\
    reachable m'.
Proof.
  intros Hm. split; [apply (reachable_inv m Hm)|].
  intros x.
  destruct (ISR_effect x m) as (m' & HI & Hr & Hv & _).
  exists m'. split; [exact HI|]. split; [exact Hr|]. split.
  - exists (SIN_val m'). exact Hv.
  - apply (reach_ISR x m m' Hm HI).
Qed.

(** C8: in every invocation, from whatever state, the primary register
    receives the sample that was cached on entry; when that cached sample is
    the table entry at the pointer as it was on entry (as it is in every
    reachable state), the register holds that entry.  The entry at the
    advanced pointer is only cached, and is what the next invocation
    writes. *)
Theorem primary_is_cached_sample x m :
  exists m',
    ISR x m = Some m' /\
    CMPACLRL (TCD0 m') = SIN_val m /\
    (SIN_at (SIN_ptr m) = Some (SIN_val m) ->
     SIN_at (SIN_ptr m) = Some (CMPACLRL (TCD0 m'))) /\
    (reachable m -> SIN_at (SIN_ptr m) = Some (CMPACLRL (TCD0 m'))) /\
    SIN_at (SIN_ptr m') = Some (SIN_val m') /\
    forall y, exists m'',
      ISR y m' = Some m'' /\
      CMPACLRL (TCD0 m'') = SIN_val m' /\
      SIN_at (SIN_ptr m') = Some (CMPACLRL (TCD0 m'')).
Proof.
  destruct (ISR_effect x m) as (m' & HI & _ & Hv & _ & Ht & _).
  exists m'. split; [exact HI|].
  assert (HA : CMPACLRL (TCD0 m') = SIN_val m) by (rewrite Ht; reflexivity).
  split; [exact HA|].
  split; [intros Hinv; rewrite HA; exact Hinv|].
  split.
  { intros Hm. destruct (reachable_inv m Hm) as (_ & Hinv & _).
    rewrite HA. exact Hinv. }
  split; [exact Hv|].
  intros y.
  destruct (ISR_effect y m') as (m'' & HI' & _ & _ & _ & Ht' & _).
  exists m''. split; [exact HI'|].
  assert (HA' : CMPACLRL (TCD0 m'') = SIN_val m') by (rewrite Ht'; reflexivity).
  split; [exact HA'|]. rewrite HA'. exact Hv.
Qed.

(** C9: an invocation changes the three globals and stores to the low
    bytes of the two compare-clear registers, to [CTRLE] and to [INTFLAGS];
    every other register, in particular the dead-time registers [CMPASET]
    and [CMPBSET], keeps its value.  (The table [SIN] is a constant, not a
    component of the state.) *)
Theorem ISR_frame x m :
  exists m',
    ISR x m = Some m' /\
    CMPASET (TCD0 m') = CMPASET (TCD0 m) /\
    CMPBSET (TCD0 m') = CMPBSET (TCD0 m) /\
    CMPACLRH (TCD0 m') = CMPACLRH (TCD0 m) /\
    CMPBCLRH (TCD0 m') = CMPBCLRH (TCD0 m) /\
    CTRLA (TCD0 m') = CTRLA (TCD0 m) /\
    CTRLB (TCD0 m') = CTRLB (TCD0 m) /\
    INTCTRL (TCD0 m') = INTCTRL (TCD0 m) /\
    FAULTCTRL (TCD0 m') = FAULTCTRL (TCD0 m) /\
    CMPACLRL (TCD0 m') = SIN_val m /\
    CMPBCLRL (TCD0 m') = uint8 (- SIN_val m) /\
    CTRLE (TCD0 m') = TCD_SYNCEOC_bm /\
    INTFLAGS (TCD0 m') = TCD_OVF_bm.
Proof.
  destruct (ISR_effect x m) as (m' & HI & _ & _ & _ & Ht & _).
  exists m'. split; [exact HI|]. rewrite Ht.
  repeat split.
Qed.

(** C10: an invocation with the 50Hz mode selected leaves the correction
    counter as it was; so does any number of them, and the next invocation
    with the correction selected then continues the countdown from the
    retained value, as if there had been no pause. *)
Theorem low_frequency_keeps_cnt60 :
  (forall x m, sel60 x = false ->
     exists m', ISR x m = Some m' /\ cnt60 m' = cnt60 m) /\
  (forall pins m, Forall (fun x => sel60 x = false) pins ->
     exists m',
       run pins m = Some m' /\
       cnt60 m' = cnt60 m /\
       forall y, sel60 y = true ->
         option_map cnt60 (ISR y m') = option_map cnt60 (ISR y m)).
Proof.
  assert (H1 : forall x m, sel60 x = false ->
            exists m', ISR x m = Some m' /\ cnt60 m' = cnt60 m).
  { intros x m Hx.
    destruct (ISR_effect x m) as (m' & HI & _ & _ & _ & _ & _ & Hc).
    exists m'. split; [exact HI|]. rewrite Hx in Hc. exact Hc. }
  split; [exact H1|].
  assert (H2 : forall pins m, Forall (fun x => sel60 x = false) pins ->
            exists m', run pins m = Some m' /\ cnt60 m' = cnt60 m).
  { induction pins as [|x pins IH]; intros m Hall.
    - exists m. split; reflexivity.
    - inversion Hall as [|? ? Hx Hall']; subst.
      destruct (H1 x m Hx) as (m1 & HI & Hc1).
      destruct (IH m1 Hall') as (m' & HR & Hc').
      exists m'. simpl run. rewrite HI. split; [exact HR | congruence]. }
  intros pins m Hall.
  destruct (H2 pins m Hall) as (m' & HR & Hc).
  exists m'. split; [exact HR|]. split; [exact Hc|].
  intros y Hy.
  destruct (ISR_effect y m') as (a & Ha & _ & _ & _ & _ & _ & Hca).
  destruct (ISR_effect y m) as (b & Hb & _ & _ & _ & _ & _ & Hcb).
  rewrite Ha, Hb. simpl. rewrite Hca, Hcb, Hc. reflexivity.
Qed.

(** ** Further properties of the generator *)

Lemma count60_cons x pins :
  count60 (x :: pins) = count60 pins + (if sel60 x then 1 else 0).
Proof.
  unfold count60. simpl filter.
  destruct (sel60 x); simpl length; lia.
Qed.

Lemma count60_all pins :
  Forall (fun x => sel60 x = true) pins ->
  count60 pins = Z.of_nat (length pins).
Proof.
  induction 1 as [|x pins Hx _ IH].
  - reflexivity.
  - rewrite count60_cons, IH, Hx. simpl length. lia.
Qed.

Lemma run_app a : forall b m,
  run (a ++ b) m =
  match run a m with Some m1 => run b m1 | None => None end.
Proof.
  induction a as [|x a IH]; intros b m.
  - reflexivity.
  - simpl. destruct (ISR x m) as [m1|]; [apply IH | reflexivity].
Qed.

Lemma run_reachable pins : forall m m',
  reachable m -> run pins m = Some m' -> reachable m'.
Proof.
  induction pins as [|x pins IH]; intros m m' Hm HR.
  - injection HR as <-. exact Hm.
  - simpl in HR. destruct (ISR x m) as [m1|] eqn:HI; [|discriminate].
    apply (IH m1 m'); [apply (reach_ISR x m m1 Hm HI) | exact HR].
Qed.

(** The correction counter stays in [1..5]. *)
Lemma reachable_cnt60 m : reachable m -> 1 <= cnt60 m <= 5.
Proof.
  induction 1 as [t | x m m' Hm IH HI].
  - simpl. lia.
  - destruct (ISR_effect x m) as (m1 & HI1 & _ & _ & _ & _ & _ & Hc).
    rewrite HI in HI1. injection HI1 as <-.
    rewrite Hc. unfold uint8. rewrite (Z.mod_small (cnt60 m - 1)) by lia.
    destruct (sel60 x); [|exact IH].
    destruct (Z.eqb_spec (cnt60 m - 1) 0); lia.
Qed.

(** Any sequence of invocations, whatever the pin levels: the pointer moves
    by one per invocation plus one per run-out of the counter, and the
    counter runs out once for every five invocations that have the
    correction selected. *)
Lemma run_mixed pins : forall m,
  0 <= SIN_ptr m < 386 -> 1 <= cnt60 m <= 5 ->
  exists m',
    run pins m = Some m' /\
    SIN_ptr m' =
      (SIN_ptr m + Z.of_nat (length pins)
       + (count60 pins + 5 - cnt60 m) / 5) mod 386 /\
    cnt60 m' = 5 - (count60 pins + 5 - cnt60 m) mod 5.
Proof.
  induction pins as [|x pins IH]; intros m Hp Hc.
  - exists m. split; [reflexivity|].
    change (count60 []) with 0. simpl length. simpl Z.of_nat.
    rewrite (Z.div_small (0 + 5 - cnt60 m)) by lia.
    rewrite (Z.mod_small (0 + 5 - cnt60 m)) by lia.
    rewrite (Z.mod_small (SIN_ptr m + 0 + 0)) by lia. lia.
  - rewrite count60_cons.
    replace (Z.of_nat (length (x :: pins))) with (Z.of_nat (length pins) + 1)
      by (simpl length; lia).
    destruct (sel60 x) eqn:Hx.
    + destruct (ISR_sel60 x m Hx Hp Hc) as (m1 & HI & Hp1 & Hc1).
      assert (Hp1r : 0 <= SIN_ptr m1 < 386)
        by (rewrite Hp1; apply Z.mod_pos_bound; lia).
      assert (Hc1r : 1 <= cnt60 m1 <= 5)
        by (rewrite Hc1; destruct (Z.eqb_spec (cnt60 m) 1); lia).
      destruct (IH m1 Hp1r Hc1r) as (m' & HR & Hp' & Hc').
      exists m'. simpl run. rewrite HI. split; [exact HR|].
      rewrite Hp', Hc', Hp1, Hc1.
      set (n := Z.of_nat (length pins)). set (j := count60 pins).
      rewrite <- Z.add_assoc, Z.add_mod_idemp_l by lia.
      destruct (Z.eqb_spec (cnt60 m) 1) as [E1|E1].
      * rewrite E1.
        replace (j + 1 + 5 - 1) with (j + 5 - 5 + 1 * 5) by lia.
        rewrite Z.div_add, Z.mod_add by lia.
        split; [f_equal; lia | reflexivity].
      * replace (j + 1 + 5 - cnt60 m) with (j + 5 - (cnt60 m - 1)) by lia.
        split; [f_equal; lia | reflexivity].
    + destruct (ISR_sel50 x m Hx Hp) as (m1 & HI & Hp1 & Hc1).
      assert (Hp1r : 0 <= SIN_ptr m1 < 386)
        by (rewrite Hp1; apply Z.mod_pos_bound; lia).
      assert (Hc1r : 1 <= cnt60 m1 <= 5) by (rewrite Hc1; exact Hc).
      destruct (IH m1 Hp1r Hc1r) as (m' & HR & Hp' & Hc').
      exists m'. simpl run. rewrite HI. split; [exact HR|].
      rewrite Hp', Hc', Hp1, Hc1.
      rewrite Z.add_0_r.
      rewrite <- Z.add_assoc, Z.add_mod_idemp_l by lia.
      split; [f_equal; lia | reflexivity].
Qed.

(** X1: in every reachable state the 60Hz correction counter is between 1
    and 5, so its 8-bit decrement never wraps below zero and the counter
    runs out after at most five corrected cycles. *)
Theorem cnt60_in_working_range m :
  reachable m ->
  1 <= cnt60 m <= 5 /\ uint8 (cnt60 m - 1) = cnt60 m - 1.
Proof.
  intros Hm. pose proof (reachable_cnt60 m Hm) as Hc.
  split; [exact Hc|]. unfold uint8. apply Z.mod_small. lia.
Qed.

(** X2: for every sequence of pin levels, from every reachable state: after
    [n] invocations, [j] of them with the 60Hz correction selected, the
    pointer has moved by [n + (j + 5 - c) / 5] positions modulo 386 and the
    counter is [5 - (j + 5 - c) mod 5], where [c] is the counter at the
    start.  Switching the frequency while running only changes how many
    extra steps are taken. *)
Theorem pointer_after_any_run pins m :
  reachable m ->
  exists m',
    run pins m = Some m' /\
    SIN_ptr m' =
      (SIN_ptr m + Z.of_nat (length pins)
       + (count60 pins + 5 - cnt60 m) / 5) mod 386 /\
    cnt60 m' = 5 - (count60 pins + 5 - cnt60 m) mod 5.
Proof.
  intros Hm.
  apply run_mixed; [apply (reachable_inv m Hm) | apply reachable_cnt60, Hm].
Qed.

(** X3: with the 60Hz correction selected throughout, the generator state
    (pointer, counter and cached sample) of every reachable state recurs
    after 965 invocations and after every multiple of 965, and after no
    smaller positive number of them: 965 cycles carry three passes over
    the table, against 386 cycles for one pass at 50Hz. *)
Theorem sel60_period pins m :
  reachable m ->
  Forall (fun x => sel60 x = true) pins ->
  exists m',
    run pins m = Some m' /\
    (forall k, Z.of_nat (length pins) = 965 * k ->
       SIN_ptr m' = SIN_ptr m /\ cnt60 m' = cnt60 m /\
       SIN_val m' = SIN_val m) /\
    (0 < Z.of_nat (length pins) < 965 ->
       ~ (SIN_ptr m' = SIN_ptr m /\ cnt60 m' = cnt60 m)).
Proof.
  intros Hm Hall.
  destruct (reachable_inv m Hm) as (Hp & Hv & _).
  pose proof (reachable_cnt60 m Hm) as Hc.
  destruct (run_mixed pins m Hp Hc) as (m' & HR & Hp' & Hc').
  rewrite (count60_all pins Hall) in Hp', Hc'.
  exists m'. split; [exact HR|]. split.
  - intros k Hk. rewrite Hk in Hp', Hc'.
    replace (965 * k + 5 - cnt60 m) with (5 - cnt60 m + (193 * k) * 5)
      in Hp', Hc' by lia.
    rewrite Z.div_add, Z.div_small in Hp' by lia.
    rewrite Z.mod_add, Z.mod_small in Hc' by lia.
    replace (SIN_ptr m + 965 * k + (0 + 193 * k))
      with (SIN_ptr m + (3 * k) * 386) in Hp' by lia.
    rewrite Z.mod_add, Z.mod_small in Hp' by lia.
    assert (Hc'' : cnt60 m' = cnt60 m) by lia.
    split; [exact Hp'|]. split; [exact Hc''|].
    destruct (reachable_inv m' (run_reachable pins m m' Hm HR)) as (_ & Hv' & _).
    rewrite Hp', Hv in Hv'. congruence.
  - intros Hn [Ep Ec].
    set (n := Z.of_nat (length pins)) in *.
    pose proof (Z.div_mod (n + 5 - cnt60 m) 5 ltac:(lia)) as D5.
    pose proof (Z.mod_pos_bound (n + 5 - cnt60 m) 5 ltac:(lia)) as B5.
    set (q := (n + 5 - cnt60 m) / 5) in *.
    set (r := (n + 5 - cnt60 m) mod 5) in *.
    pose proof (Z.div_mod (SIN_ptr m + n + q) 386 ltac:(lia)) as D.
    rewrite <- Hp', Ep in D.
    set (Q := (SIN_ptr m + n + q) / 386) in *.
    lia.
Qed.

(** The two stored durations add up to 256, or are both 0. *)
Lemma ISR_registers_sum x m :
  reachable m ->
  exists m',
    ISR x m = Some m' /\
    0 <= CMPACLRL (TCD0 m') <= 255 /\
    0 <= CMPBCLRL (TCD0 m') <= 255 /\
    CMPACLRL (TCD0 m') + CMPBCLRL (TCD0 m') =
      (if CMPACLRL (TCD0 m') =? 0 then 0 else 256).
Proof.
  intros Hm.
  destruct (reachable_inv m Hm) as (_ & _ & Hv).
  destruct (ISR_effect x m) as (m' & HI & _ & _ & _ & Ht & _).
  exists m'. split; [exact HI|]. rewrite Ht.
  unfold ISR_stores, uint8. cbn [CMPBCLRL CMPACLRL].
  destruct (Z.eqb_spec (SIN_val m) 0) as [E|E].
  - rewrite E. change ((- 0) mod 256) with 0. lia.
  - replace (- SIN_val m) with (256 - SIN_val m + (-1) * 256) by lia.
    rewrite Z.mod_add, Z.mod_small by lia. lia.
Qed.

(** X4: in every reachable state an invocation stores to the secondary
    register the 8-bit two's complement of what it stores to the primary
    one: the two values add up to 256, except for the sample 0, where both
    registers receive 0. *)
Theorem duration_registers_sum x m :
  reachable m ->
  exists m',
    ISR x m = Some m' /\
    0 <= CMPACLRL (TCD0 m') <= 255 /\
    0 <= CMPBCLRL (TCD0 m') <= 255 /\
    CMPACLRL (TCD0 m') + CMPBCLRL (TCD0 m') =
      (if CMPACLRL (TCD0 m') =? 0 then 0 else 256).
Proof. exact (ISR_registers_sum x m). Qed.

(** Along the table, wrap-around included, a sample differs from the next
    one by at most 3 and from the next but one by at most 5. *)
Lemma SIN_steps i :
  0 <= i < 386 ->
  exists a b c,
    SIN_at i = Some a /\
    SIN_at (next_SIN_ptr i) = Some b /\
    SIN_at (next_SIN_ptr (next_SIN_ptr i)) = Some c /\
    Z.abs (b - a) <= 3 /\ Z.abs (c - a) <= 5.
Proof.
  intros Hi.
  pose (P := fun i =>
     match SIN_at i, SIN_at (next_SIN_ptr i),
           SIN_at (next_SIN_ptr (next_SIN_ptr i)) with
     | Some a, Some b, Some c =>
         (Z.abs (b - a) <=? 3) && (Z.abs (c - a) <=? 5)
     | _, _, _ => false
     end).
  assert (HP : P i = true).
  { apply (indices_forallb P 386); [vm_compute; reflexivity | lia]. }
  unfold P in HP.
  destruct (SIN_at i) as [a|]; [|discriminate].
  destruct (SIN_at (next_SIN_ptr i)) as [b|]; [|discriminate].
  destruct (SIN_at (next_SIN_ptr (next_SIN_ptr i))) as [c|]; [|discriminate].
  apply andb_true_iff in HP. destruct HP as [H1 H2].
  apply Z.leb_le in H1, H2.
  exists a, b, c. repeat split; assumption.
Qed.

(** X5: from every reachable state, the sample cached by an invocation,
    which the next invocation writes to the primary register, differs from
    the one just written by at most 5, and by at most 3 when the invocation
    does not skip a table entry. *)
Theorem sample_step_bound x m :
  reachable m ->
  exists m',
    ISR x m = Some m' /\
    CMPACLRL (TCD0 m') = SIN_val m /\
    Z.abs (SIN_val m' - SIN_val m) <= 5 /\
    (sel60 x = false \/ cnt60 m <> 1 ->
     Z.abs (SIN_val m' - SIN_val m) <= 3).
Proof.
  intros Hm.
  destruct (reachable_inv m Hm) as (Hp & Hv & _).
  pose proof (reachable_cnt60 m Hm) as Hc.
  destruct (ISR_effect x m) as (m' & HI & _ & Hv' & _ & Ht & Hp' & _).
  destruct (SIN_steps (SIN_ptr m) Hp) as (a & b & c & Ha & Hb & Hcc & H3 & H5).
  rewrite Hv in Ha. injection Ha as <-.
  exists m'. split; [exact HI|]. split; [rewrite Ht; reflexivity|].
  unfold uint8 in Hp'. rewrite (Z.mod_small (cnt60 m - 1)) in Hp' by lia.
  destruct (sel60 x) eqn:Hx; simpl andb in Hp'.
  - destruct (Z.eqb_spec (cnt60 m - 1) 0) as [E|E].
    + rewrite Hp', Hcc in Hv'. injection Hv' as <-.
      split; [exact H5|]. intros [?|?]; [discriminate | lia].
    + rewrite Hp', Hb in Hv'. injection Hv' as <-.
      split; [lia|]. intros _. exact H3.
  - rewrite Hp', Hb in Hv'. injection Hv' as <-.
    split; [lia|]. intros _. exact H3.
Qed.

(** X6: the table is mirror symmetric about its quarter points: the sample
    at index [i] equals the sample at index [(193 - i) mod 386], and every
    sample is a byte. *)
Theorem SIN_mirror i :
  0 <= i < 386 ->
  exists v,
    SIN_at i = Some v /\
    SIN_at ((193 - i) mod 386) = Some v /\
    0 <= v <= 255.
Proof.
  intros Hi.
  pose (P := fun i =>
     match SIN_at i, SIN_at ((193 - i) mod 386) with
     | Some a, Some b => (a =? b) && (0 <=? a) && (a <=? 255)
     | _, _ => false
     end).
  assert (HP : P i = true).
  { apply (indices_forallb P 386); [vm_compute; reflexivity | lia]. }
  unfold P in HP.
  destruct (SIN_at i) as [a|]; [|discriminate].
  destruct (SIN_at ((193 - i) mod 386)) as [b|]; [|discriminate].
  apply andb_true_iff in HP. destruct HP as [HP H2].
  apply andb_true_iff in HP. destruct HP as [H0 H1].
  apply Z.eqb_eq in H0. apply Z.leb_le in H1, H2. subst b.
  exists a. repeat split; assumption.
Qed.

(** X7: of the input register the routine uses the level of pin PA3 only:
    two readings that agree on bit 3 give the same result. *)
Theorem ISR_reads_only_PA3 x y m :
  Z.testbit x 3 = Z.testbit y 3 -> ISR x m = ISR y m.
Proof.
  intros H. unfold ISR.
  rewrite (sel60_testbit x), (sel60_testbit y), H. reflexivity.
Qed.

(** The registers the routine does not store to, over a whole run. *)
Lemma run_keeps_registers pins : forall m,
  exists m',
    run pins m = Some m' /\
    CMPASET (TCD0 m') = CMPASET (TCD0 m) /\
    CMPBSET (TCD0 m') = CMPBSET (TCD0 m) /\
    CMPACLRH (TCD0 m') = CMPACLRH (TCD0 m) /\
    CMPBCLRH (TCD0 m') = CMPBCLRH (TCD0 m) /\
    CTRLA (TCD0 m') = CTRLA (TCD0 m) /\
    CTRLB (TCD0 m') = CTRLB (TCD0 m) /\
    INTCTRL (TCD0 m') = INTCTRL (TCD0 m) /\
    FAULTCTRL (TCD0 m') = FAULTCTRL (TCD0 m).
Proof.
  induction pins as [|x pins IH]; intros m.
  - exists m. repeat split.
  - destruct (ISR_effect x m) as (m1 & HI & _ & _ & _ & Ht & _).
    destruct (IH m1) as (m' & HR & H1 & H2 & H3 & H4 & H5 & H6 & H7 & H8).
    exists m'. simpl run. rewrite HI. split; [exact HR|].
    rewrite H1, H2, H3, H4, H5, H6, H7, H8, Ht.
    repeat split.
Qed.

(** X8: any number of invocations leaves the dead-time registers, the high
    bytes of the compare-clear registers and the control registers [CTRLA],
    [CTRLB], [INTCTRL] and [FAULTCTRL] as they were. *)
Theorem run_frame pins m :
  exists m',
    run pins m = Some m' /\
    CMPASET (TCD0 m') = CMPASET (TCD0 m) /\
    CMPBSET (TCD0 m') = CMPBSET (TCD0 m) /\
    CMPACLRH (TCD0 m') = CMPACLRH (TCD0 m) /\
    CMPBCLRH (TCD0 m') = CMPBCLRH (TCD0 m) /\
    CTRLA (TCD0 m') = CTRLA (TCD0 m) /\
    CTRLB (TCD0 m') = CTRLB (TCD0 m) /\
    INTCTRL (TCD0 m') = INTCTRL (TCD0 m) /\
    FAULTCTRL (TCD0 m') = FAULTCTRL (TCD0 m).
Proof. exact (run_keeps_registers pins m). Qed.

(** ** Set-up *)

Lemma store_at_length n v l : length (store_at n v l) = length l.
Proof.
  revert n. induction l as [|a l IH]; intros [|n]; simpl; try reflexivity.
  rewrite IH. reflexivity.
Qed.

Lemma store_at_nth n v l k :
  nth_error (store_at n v l) k =
  if Nat.eqb k n then option_map (fun _ => v) (nth_error l k)
  else nth_error l k.
Proof.
  revert n k. induction l as [|a l IH]; intros [|n] [|k]; simpl;
    try reflexivity.
  - destruct (Nat.eqb k n); reflexivity.
  - apply IH.
Qed.

(** [pinOutput] sets bit [x] of the direction register and keeps the other
    seven. *)
Lemma pinOutput_bits x dir n :
  0 <= x -> 0 <= n < 8 ->
  Z.testbit (pinOutput x dir) n = Z.testbit dir n || (n =? x).
Proof.
  intros Hx Hn. unfold pinOutput, uint8.
  change 256 with (2 ^ 8).
  rewrite Z.mod_pow2_bits_low by lia.
  rewrite Z.lor_spec, Z.shiftl_1_l, Z.pow2_bits_eqb by lia.
  rewrite (Z.eqb_sym x n). reflexivity.
Qed.

(** The wait loop's condition is false exactly when the reading has every
    bit of the mask set. *)
Lemma land_lnot_0_iff s k : Z.land (Z.lnot s) k = 0 <-> Z.land s k = k.
Proof.
  split; intros H; apply Z.bits_inj'; intros n Hn.
  - assert (Hb : Z.testbit (Z.land (Z.lnot s) k) n = false)
      by (rewrite H; apply Z.bits_0).
    rewrite Z.land_spec, Z.lnot_spec in Hb by exact Hn.
    rewrite Z.land_spec.
    destruct (Z.testbit s n), (Z.testbit k n); simpl in *; congruence.
  - assert (Hb : Z.testbit (Z.land s k) n = Z.testbit k n) by (rewrite H; reflexivity).
    rewrite Z.land_spec in Hb.
    rewrite Z.land_spec, Z.lnot_spec, Z.bits_0 by exact Hn.
    destruct (Z.testbit s n), (Z.testbit k n); simpl in *; congruence.
Qed.

Lemma wait_ENRDY_iff STATUS :
  wait_ENRDY STATUS <> None <->
  exists s, In s STATUS /\ Z.land s TCD_ENRDY_bm = TCD_ENRDY_bm.
Proof.
  induction STATUS as [|s rest IH]; simpl.
  - split; [congruence | intros (s & [] & _)].
  - destruct (Z.eqb_spec (Z.land (Z.lnot s) TCD_ENRDY_bm) 0) as [E|E].
    + split; [|discriminate]. intros _.
      exists s. split; [left; reflexivity | apply land_lnot_0_iff, E].
    + rewrite IH. split.
      * intros (s' & Hin & Hs'). exists s'. split; [right; exact Hin | exact Hs'].
      * intros (s' & [<-|Hin] & Hs').
        -- exfalso. apply E. apply land_lnot_0_iff, Hs'.
        -- exists s'. split; assumption.
Qed.

(** The board in which [main] idles, when it gets there. *)
Lemma main_inv STATUS b b' :
  main STATUS b = Some b' ->
  exists v,
    nth_error (PORTA_PINnCTRL b) 3 = Some v /\
    wait_ENRDY STATUS <> None /\
    b' = mkBoard
           (mkMachine (SIN_ptr (mcu b)) (SIN_val (mcu b)) (cnt60 (mcu b))
              (main_TCD0_enable (main_TCD0_before_wait (TCD0 (mcu b)))))
           0 (uint8 CCP_IOREG_gc)
           (pinOutput PIN_WOB (pinOutput PIN_WOA (VPORTA_DIR b)))
           (store_at 3 (uint8 (Z.lor v PORT_PULLUPEN_bm)) (PORTA_PINnCTRL b))
           true.
Proof.
  unfold main, pinPullup. change (PIN_FRQ <? 0) with false. cbv iota.
  change (Z.to_nat PIN_FRQ) with 3%nat.
  destruct (nth_error (PORTA_PINnCTRL b) 3) as [v|]; [|discriminate].
  destruct (wait_ENRDY STATUS) as [rest|]; [|discriminate].
  intros H. injection H as <-.
  exists v. split; [reflexivity|]. split; [discriminate | reflexivity].
Qed.

Lemma main_defined STATUS b :
  (3 < length (PORTA_PINnCTRL b))%nat ->
  wait_ENRDY STATUS <> None ->
  exists b', main STATUS b = Some b'.
Proof.
  intros Hlen Hw.
  unfold main, pinPullup. change (PIN_FRQ <? 0) with false. cbv iota.
  change (Z.to_nat PIN_FRQ) with 3%nat.
  destruct (nth_error (PORTA_PINnCTRL b) 3) as [v|] eqn:E.
  - destruct (wait_ENRDY STATUS) as [rest|]; [|contradiction].
    eexists. reflexivity.
  - apply nth_error_None in E. lia.
Qed.

(** X9: when [main] gets through its set-up, pins PA6 and PA7 are outputs
    and the direction of the other six pins is as before; the pin control
    register of PA3 has the pull-up bits set in addition to what it held,
    and the other seven pin control registers are as before. *)
Theorem main_port_setup STATUS b b' :
  main STATUS b = Some b' ->
  (forall n, 0 <= n < 8 ->
     Z.testbit (VPORTA_DIR b') n =
     Z.testbit (VPORTA_DIR b) n || (n =? 6) || (n =? 7)) /\
  length (PORTA_PINnCTRL b') = length (PORTA_PINnCTRL b) /\
  (forall k v, nth_error (PORTA_PINnCTRL b) k = Some v ->
     nth_error (PORTA_PINnCTRL b') k =
     Some (if Nat.eqb k 3 then uint8 (Z.lor v PORT_PULLUPEN_bm) else v)) /\
  SREG_I b' = true.
Proof.
  intros H. destruct (main_inv STATUS b b' H) as (v & Hv & _ & ->).
  cbn [VPORTA_DIR PORTA_PINnCTRL SREG_I].
  split; [|split; [|split]].
  - intros n Hn.
    rewrite (pinOutput_bits PIN_WOB) by (unfold PIN_WOB, PA7; lia).
    rewrite (pinOutput_bits PIN_WOA) by (unfold PIN_WOA, PA6; lia).
    reflexivity.
  - apply store_at_length.
  - intros k w Hk. rewrite store_at_nth, Hk.
    destruct (Nat.eqb_spec k 3) as [->|_]; [|reflexivity].
    simpl. congruence.
  - reflexivity.
Qed.

(** X10: with the eight pin control registers present, [main] gets through
    its set-up and enables the timer exactly when some reading of the
    status register has every bit of the ready mask set, and the board it
    leaves does not depend on which readings came before. *)
Theorem main_completes STATUS b :
  (3 < length (PORTA_PINnCTRL b))%nat ->
  (main STATUS b <> None <->
   exists s, In s STATUS /\ Z.land s TCD_ENRDY_bm = TCD_ENRDY_bm) /\
  (forall STATUS2, main STATUS b <> None -> main STATUS2 b <> None ->
     main STATUS b = main STATUS2 b).
Proof.
  intros Hlen. split.
  - rewrite <- wait_ENRDY_iff. split.
    + intros Hm. destruct (main STATUS b) as [b'|] eqn:E; [|contradiction].
      destruct (main_inv STATUS b b' E) as (_ & _ & Hw & _). exact Hw.
    + intros Hw. destruct (main_defined STATUS b Hlen Hw) as (b' & ->).
      discriminate.
  - intros STATUS2 H1 H2.
    destruct (main STATUS b) as [b1|] eqn:E1; [|contradiction].
    destruct (main STATUS2 b) as [b2|] eqn:E2; [|contradiction].
    destruct (main_inv STATUS b b1 E1) as (v1 & Hv1 & _ & ->).
    destruct (main_inv STATUS2 b b2 E2) as (v2 & Hv2 & _ & ->).
    rewrite Hv1 in Hv2. injection Hv2 as <-. reflexivity.
Qed.

(** ** Set-up followed by interrupts *)

(** [main] leaves the globals as initialised, so the state in which it
    idles is a start-up state of the generator. *)
Lemma main_machine STATUS b t :
  mcu b = power_on t ->
  (3 < length (PORTA_PINnCTRL b))%nat ->
  (exists s, In s STATUS /\ Z.land s TCD_ENRDY_bm = TCD_ENRDY_bm) ->
  exists b0,
    main STATUS b = Some b0 /\
    mcu b0 = power_on (main_TCD0_enable (main_TCD0_before_wait t)).
Proof.
  intros Hb Hlen Hs.
  apply wait_ENRDY_iff in Hs.
  destruct (main_defined STATUS b Hlen Hs) as (b0 & Hm).
  exists b0. split; [exact Hm|].
  destruct (main_inv STATUS b b0 Hm) as (v & _ & _ & ->).
  rewrite Hb. reflexivity.
Qed.

(** X11: once [main] has set the board up from the initialised globals,
    any number of timer interrupts can follow: none fails, and after each
    of them the dead-time registers still hold 3, the high bytes of the
    compare-clear registers are 0, and the control registers hold what
    [main] stored. *)
Theorem firmware_keeps_setup STATUS pins b t :
  mcu b = power_on t ->
  (3 < length (PORTA_PINnCTRL b))%nat ->
  (exists s, In s STATUS /\ Z.land s TCD_ENRDY_bm = TCD_ENRDY_bm) ->
  exists m',
    firmware STATUS pins b = Some m' /\
    reachable m' /\
    CMPASET (TCD0 m') = 3 /\
    CMPBSET (TCD0 m') = 3 /\
    CMPACLRH (TCD0 m') = 0 /\
    CMPBCLRH (TCD0 m') = 0 /\
    CTRLA (TCD0 m') =
      uint8 (Z.lor (Z.lor TCD_CLKSEL_20MHZ_gc TCD_CNTPRES_DIV4_gc)
                   TCD_ENABLE_bm) /\
    CTRLB (TCD0 m') = uint8 TCD_WGMODE_FOURRAMP_gc /\
    INTCTRL (TCD0 m') = uint8 TCD_OVF_bm /\
    FAULTCTRL (TCD0 m') = uint8 (Z.lor TCD_CMPAEN_bm TCD_CMPBEN_bm).
Proof.
  intros Hb Hlen Hs.
  destruct (main_machine STATUS b t Hb Hlen Hs) as (b0 & Hm & Hmcu).
  destruct (run_keeps_registers pins (mcu b0))
    as (m' & HR & H1 & H2 & H3 & H4 & H5 & H6 & H7 & H8).
  exists m'. unfold firmware. rewrite Hm. split; [exact HR|].
  split.
  - apply (run_reachable pins (mcu b0) m'); [|exact HR].
    rewrite Hmcu. apply reach_power_on.
  - rewrite H1, H2, H3, H4, H5, H6, H7, H8, Hmcu.
    repeat split.
Qed.

(** X12: the length of the timer cycle, by the formula that accompanies
    the table, is 265 timer clocks as [main] leaves the registers; after
    every interrupt it is 266 clocks, except after one that wrote the
    sample 0, when it is 10 clocks. *)
Theorem firmware_cycle_length STATUS pins b t :
  mcu b = power_on t ->
  (3 < length (PORTA_PINnCTRL b))%nat ->
  (exists s, In s STATUS /\ Z.land s TCD_ENRDY_bm = TCD_ENRDY_bm) ->
  exists m',
    firmware STATUS pins b = Some m' /\
    TCD_cycle_length (TCD0 m') =
      match pins with
      | [] => 265
      | _ :: _ => if CMPACLRL (TCD0 m') =? 0 then 10 else 266
      end.
Proof.
  intros Hb Hlen Hs.
  destruct (main_machine STATUS b t Hb Hlen Hs) as (b0 & Hm & Hmcu).
  unfold firmware. rewrite Hm.
  destruct pins as [|x0 pins0].
  - exists (mcu b0). split; [reflexivity|]. rewrite Hmcu. reflexivity.
  - destruct (exists_last (l := x0 :: pins0) ltac:(discriminate))
      as (pre & x & ->).
    rewrite run_app.
    destruct (run_keeps_registers pre (mcu b0))
      as (m1 & HR & H1 & H2 & H3 & H4 & _).
    rewrite HR.
    assert (Hm1 : reachable m1).
    { apply (run_reachable pre (mcu b0) m1); [|exact HR].
      rewrite Hmcu. apply reach_power_on. }
    destruct (ISR_registers_sum x m1 Hm1) as (m' & HI & _ & _ & Hsum).
    destruct (ISR_effect x m1) as (m2 & HI2 & _ & _ & _ & Ht & _).
    rewrite HI in HI2. injection HI2 as <-.
    exists m'. simpl run. rewrite HI. split; [reflexivity|].
    assert (HA : CMPASET (TCD0 m') = 3)
      by (rewrite Ht; cbn [ISR_stores CMPASET]; rewrite H1, Hmcu; reflexivity).
    assert (HB : CMPBSET (TCD0 m') = 3)
      by (rewrite Ht; cbn [ISR_stores CMPBSET]; rewrite H2, Hmcu; reflexivity).
    assert (HAh : CMPACLRH (TCD0 m') = 0)
      by (rewrite Ht; cbn [ISR_stores CMPACLRH]; rewrite H3, Hmcu; reflexivity).
    assert (HBh : CMPBCLRH (TCD0 m') = 0)
      by (rewrite Ht; cbn [ISR_stores CMPBCLRH]; rewrite H4, Hmcu; reflexivity).
    unfold TCD_cycle_length, CMPACLR, CMPBCLR.
    rewrite HA, HB, HAh, HBh.
    destruct (pre ++ [x]) eqn:E; [destruct pre; discriminate|].
    destruct (CMPACLRL (TCD0 m') =? 0); lia.
Qed.

End Firmware.

(** ** Instances at concrete inputs

    The header masks are instantiated with 1 (bit 0 of [CTRLE] and of
    [INTFLAGS]); an input register value of 0 has pin PA3 low (60Hz), a
    value of 8 has it high (50Hz). *)

(** The two samples half a period apart add up to 256, not 255, at index 0:
    [SIN[0] = SIN[193] = 0x80]. *)
Lemma SIN_phase_sum_fails_at_0 :
  0 <= 0 < 386 /\ SIN_sum 0 = Some 256 /\ ~ phase_complementary 0.
Proof.
  split; [lia|]. split; [reflexivity|].
  unfold phase_complementary. discriminate.
Defined.

Lemma SIN_phase_sum_witness :
  0 <= 1 < 386 /\ phase_complementary 1 /\ SIN_sum 193 = Some 256.
Proof.
  split; [lia|]. split.
  - apply (SIN_phase_sum 1); lia.
  - apply (SIN_phase_sum 193); [lia | right; reflexivity].
Defined.

Lemma power_on_state_witness :
  sel60 0 = true /\
  exists m', ISR 1 1 0 (mkMachine 0 0x80 1 tcd_after_setup) = Some m' /\
             cnt60 m' = 5.
Proof.
  split; [reflexivity|].
  apply (power_on_state 1 1 tcd_after_setup); reflexivity.
Defined.

(** A constant pin level over [n] cycles. *)
Lemma sel60_repeat (b : bool) (x : Z) (n : nat) :
  sel60 x = b -> Forall (fun y => sel60 y = b) (repeat x n).
Proof.
  intros Hx. apply Forall_forall. intros y Hy.
  apply repeat_spec in Hy. subst y. exact Hx.
Defined.

Lemma skip_mode_advance_witness :
  exists m',
    run 1 1 (repeat 0 386) (power_on tcd_after_setup) = Some m' /\
    SIN_ptr m' = 77 /\ cnt60 m' = 4.
Proof.
  destruct (skip_mode_advance 1 1 (repeat 0 386) (power_on tcd_after_setup))
    as (m' & HR & Hp & Hc & _).
  - apply sel60_repeat. reflexivity.
  - simpl. lia.
  - reflexivity.
  - exists m'. split; [exact HR|]. split.
    + rewrite Hp. reflexivity.
    + rewrite Hc. reflexivity.
Defined.

Lemma base_advance_period_witness :
  (exists m', ISR 1 1 8 (mkMachine 385 0x7d 5 tcd_after_setup) = Some m' /\
              SIN_ptr m' = 0) /\
  (exists m', run 1 1 (repeat 8 385) (power_on tcd_after_setup) = Some m' /\
              SIN_ptr m' = 385) /\
  (exists m', run 1 1 (repeat 8 386) (power_on tcd_after_setup) = Some m' /\
              SIN_ptr m' = 0).
Proof.
  split; [|split].
  - destruct (proj1 (base_advance_period 1 1) 8
                (mkMachine 385 0x7d 5 tcd_after_setup))
      as (m' & HI & Hp).
    + reflexivity.
    + simpl. lia.
    + exists m'. split; [exact HI | exact Hp].
  - destruct (proj2 (base_advance_period 1 1) (repeat 8 385)
                (power_on tcd_after_setup))
      as (m' & HR & _ & Hlt & _).
    + apply sel60_repeat. reflexivity.
    + reflexivity.
    + exists m'. split; [exact HR|].
      rewrite Hlt; [reflexivity | rewrite repeat_length; lia].
  - destruct (proj2 (base_advance_period 1 1) (repeat 8 386)
                (power_on tcd_after_setup))
      as (m' & HR & _ & _ & Heq).
    + apply sel60_repeat. reflexivity.
    + reflexivity.
    + exists m'. split; [exact HR|].
      apply Heq. apply repeat_length.
Defined.

Lemma ISR_never_fails_witness :
  0 <= SIN_ptr (power_on tcd_after_setup) < 386 /\
  exists m', ISR 1 1 0 (power_on tcd_after_setup) = Some m' /\
             0 <= SIN_ptr m' < 386.
Proof.
  destruct (ISR_never_fails 1 1 (power_on tcd_after_setup)
              (reach_power_on 1 1 tcd_after_setup)) as (Hr & Hx).
  split; [exact Hr|].
  destruct (Hx 0) as (m' & HI & Hr' & _).
  exists m'. split; [exact HI | exact Hr'].
Defined.

Lemma primary_is_cached_sample_witness :
  (exists m',
     ISR 1 1 0 (mkMachine 1 0x82 4 (mkTCD 0 0 1 0 1 0 0x03 0x80 0 0x03 0x80 0))
     = Some m' /\
     CMPACLRL (TCD0 m') = 0x82 /\
     SIN_at 1 = Some (CMPACLRL (TCD0 m')) /\
     SIN_val m' = 0x84) /\
  (exists m',
     ISR 1 1 8 (mkMachine 10 0x33 3 tcd_after_setup) = Some m' /\
     CMPACLRL (TCD0 m') = 0x33).
Proof.
  split.
  - destruct (primary_is_cached_sample 1 1 0
                (mkMachine 1 0x82 4 (mkTCD 0 0 1 0 1 0 0x03 0x80 0 0x03 0x80 0)))
      as (m' & HI & HA & HS & _ & _).
    exists m'. split; [exact HI|]. split; [exact HA|].
    split; [apply HS; reflexivity|].
    vm_compute in HI. injection HI as <-. reflexivity.
  - destruct (primary_is_cached_sample 1 1 8
                (mkMachine 10 0x33 3 tcd_after_setup))
      as (m' & HI & HA & _).
    exists m'. split; [exact HI | exact HA].
Defined.

Lemma low_frequency_keeps_cnt60_witness :
  (exists m', ISR 1 1 8 (mkMachine 10 0x94 3 tcd_after_setup) = Some m' /\
              cnt60 m' = 3) /\
  (exists m', run 1 1 [8; 8; 8] (mkMachine 10 0x94 3 tcd_after_setup) = Some m' /\
              cnt60 m' = 3).
Proof.
  split.
  - destruct (proj1 (low_frequency_keeps_cnt60 1 1) 8
                (mkMachine 10 0x94 3 tcd_after_setup))
      as (m' & HI & Hc); [reflexivity|].
    exists m'. split; [exact HI | exact Hc].
  - destruct (proj2 (low_frequency_keeps_cnt60 1 1) [8; 8; 8]
                (mkMachine 10 0x94 3 tcd_after_setup))
      as (m' & HR & Hc & _); [repeat constructor|].
    exists m'. split; [exact HR | exact Hc].
Defined.

(** The first invocation after start-up, evaluated: the registers receive
    [0x80] and [0x80], and the sample cached for the next cycle is
    [SIN[1] = 0x82]. *)
Example ISR_at_power_on :
  ISR 1 1 0 (power_on tcd_after_setup) =
  Some (mkMachine 1 0x82 4 (mkTCD 0 0 1 0 1 0 0x03 0x80 0 0x03 0x80 0)).
Proof. reflexivity. Qed.

(** After 285 cycles at 50Hz the cached sample is 0, and the next
    invocation stores 0 to both compare-clear registers. *)
Example ISR_at_trough :
  exists m m',
    run 1 1 (repeat 8 285) (power_on tcd_after_setup) = Some m /\
    SIN_val m = 0 /\
    ISR 1 1 8 m = Some m' /\
    CMPACLRL (TCD0 m') = 0 /\ CMPBCLRL (TCD0 m') = 0.
Proof.
  eexists. eexists.
  split; [vm_compute; reflexivity|].
  split; [reflexivity|].
  split; [vm_compute; reflexivity|].
  split; reflexivity.
Qed.

(** ** Instances of the further properties

    The set-up is instantiated with the masks [TCD_OVF_bm = 1],
    [TCD_WGMODE_FOURRAMP_gc = 2], [CCP_IOREG_gc = 0xD8],
    [TCD_CMPAEN_bm = 0x10], [TCD_CMPBEN_bm = 0x20], [TCD_ENRDY_bm = 1],
    [TCD_CLKSEL_20MHZ_gc = 0], [TCD_CNTPRES_DIV4_gc = 8],
    [TCD_ENABLE_bm = 1] and [PORT_PULLUPEN_bm = 8], and with two readings
    of the status register, of which the second reports ready. *)

Local Abbreviation main_ex := (main 1 2 0xD8 0x10 0x20 1 0 8 1 8).
Local Abbreviation firmware_ex := (firmware 1 1 2 0xD8 0x10 0x20 1 0 8 1 8).

Lemma cnt60_in_working_range_witness :
  1 <= cnt60 (power_on tcd_after_setup) <= 5.
Proof.
  apply (cnt60_in_working_range 1 1 (power_on tcd_after_setup)).
  apply reach_power_on.
Defined.

Lemma pointer_after_any_run_witness :
  exists m',
    run 1 1 [0; 8; 0; 0; 8; 0; 0] (power_on tcd_after_setup) = Some m' /\
    SIN_ptr m' = 8 /\ cnt60 m' = 5.
Proof.
  destruct (pointer_after_any_run 1 1 [0; 8; 0; 0; 8; 0; 0]
              (power_on tcd_after_setup) (reach_power_on 1 1 tcd_after_setup))
    as (m' & HR & Hp & Hc).
  exists m'. split; [exact HR|]. split.
  - rewrite Hp. reflexivity.
  - rewrite Hc. reflexivity.
Defined.

Lemma sel60_period_witness :
  exists m',
    run 1 1 (repeat 0 965) (power_on tcd_after_setup) = Some m' /\
    SIN_ptr m' = 0 /\ cnt60 m' = 5 /\ SIN_val m' = 0x80.
Proof.
  destruct (sel60_period 1 1 (repeat 0 965) (power_on tcd_after_setup)
              (reach_power_on 1 1 tcd_after_setup))
    as (m' & HR & Hk & _).
  - apply sel60_repeat. reflexivity.
  - exists m'. split; [exact HR|].
    apply (Hk 1). rewrite repeat_length. reflexivity.
Defined.

Lemma duration_registers_sum_witness :
  exists m',
    ISR 1 1 0 (power_on tcd_after_setup) = Some m' /\
    CMPACLRL (TCD0 m') + CMPBCLRL (TCD0 m') =
      (if CMPACLRL (TCD0 m') =? 0 then 0 else 256).
Proof.
  destruct (duration_registers_sum 1 1 0 (power_on tcd_after_setup)
              (reach_power_on 1 1 tcd_after_setup))
    as (m' & HI & _ & _ & Hs).
  exists m'. split; [exact HI | exact Hs].
Defined.

Lemma sample_step_bound_witness :
  exists m',
    ISR 1 1 8 (power_on tcd_after_setup) = Some m' /\
    Z.abs (SIN_val m' - 0x80) <= 3.
Proof.
  destruct (sample_step_bound 1 1 8 (power_on tcd_after_setup)
              (reach_power_on 1 1 tcd_after_setup))
    as (m' & HI & _ & _ & H3).
  exists m'. split; [exact HI|].
  apply H3. left. reflexivity.
Defined.

Lemma SIN_mirror_witness :
  exists v, SIN_at 10 = Some v /\ SIN_at 183 = Some v.
Proof.
  destruct (SIN_mirror 10) as (v & Ha & Hb & _); [lia|].
  exists v. split; [exact Ha | exact Hb].
Defined.

Lemma ISR_reads_only_PA3_witness :
  ISR 1 1 0 (power_on tcd_after_setup)
  = ISR 1 1 0xC0 (power_on tcd_after_setup).
Proof.
  apply (ISR_reads_only_PA3 1 1 0 0xC0). reflexivity.
Defined.

Lemma main_port_setup_witness :
  exists b',
    main_ex [0; 1] board_at_reset = Some b' /\
    Z.testbit (VPORTA_DIR b') 6 = true /\
    Z.testbit (VPORTA_DIR b') 3 = false /\
    nth_error (PORTA_PINnCTRL b') 3 = Some 8 /\
    nth_error (PORTA_PINnCTRL b') 6 = Some 0.
Proof.
  assert (E : main_ex [0; 1] board_at_reset =
              Some (mkBoard
                      (power_on (mkTCD 9 2 0 1 0 48 3 128 0 3 127 0))
                      0 216 192 [0; 0; 0; 8; 0; 0; 0; 0] true))
    by reflexivity.
  destruct (main_port_setup 1 2 0xD8 0x10 0x20 1 0 8 1 8 [0; 1]
              board_at_reset _ E) as (Hd & _ & Hk & _).
  eexists. split; [exact E|].
  split; [apply (Hd 6); lia|].
  split; [apply (Hd 3); lia|].
  split; [apply (Hk 3%nat 0); reflexivity | apply (Hk 6%nat 0); reflexivity].
Defined.

Lemma main_completes_witness :
  main_ex [0; 1] board_at_reset <> None /\
  main_ex [0; 1] board_at_reset = main_ex [0; 2; 3] board_at_reset.
Proof.
  destruct (main_completes 1 2 0xD8 0x10 0x20 1 0 8 1 8 [0; 1]
              board_at_reset) as (Hiff & Hsame).
  - simpl. lia.
  - split.
    + apply Hiff. exists 1. split; [right; left; reflexivity | reflexivity].
    + apply Hsame; discriminate.
Defined.

Lemma firmware_keeps_setup_witness :
  exists m',
    firmware_ex [0; 1] [0; 0; 8] board_at_reset = Some m' /\
    CMPASET (TCD0 m') = 3 /\ CMPBSET (TCD0 m') = 3.
Proof.
  destruct (firmware_keeps_setup 1 1 2 0xD8 0x10 0x20 1 0 8 1 8
              [0; 1] [0; 0; 8] board_at_reset
              (mkTCD 0 0 0 0 0 0 0 0 0 0 0 0))
    as (m' & HF & _ & HA & HB & _).
  - reflexivity.
  - simpl. lia.
  - exists 1. split; [right; left; reflexivity | reflexivity].
  - exists m'. split; [exact HF|]. split; [exact HA | exact HB].
Defined.

Lemma firmware_cycle_length_witness :
  exists m',
    firmware_ex [0; 1] [0; 0; 8] board_at_reset = Some m' /\
    TCD_cycle_length (TCD0 m') =
      (if CMPACLRL (TCD0 m') =? 0 then 10 else 266).
Proof.
  destruct (firmware_cycle_length 1 1 2 0xD8 0x10 0x20 1 0 8 1 8
              [0; 1] [0; 0; 8] board_at_reset
              (mkTCD 0 0 0 0 0 0 0 0 0 0 0 0))
    as (m' & HF & HL).
  - reflexivity.
  - simpl. lia.
  - exists 1. split; [right; left; reflexivity | reflexivity].
  - exists m'. split; [exact HF | exact HL].
Defined.

(** The set-up and three interrupts, evaluated: the cycle is 266 timer
    clocks long. *)
Example firmware_three_cycles :
  firmware_ex [0; 1] [0; 0; 8] board_at_reset =
  Some (mkMachine 3 0x86 3 (mkTCD 9 2 1 1 1 48 3 0x84 0 3 0x7c 0)) /\
  TCD_cycle_length (mkTCD 9 2 1 1 1 48 3 0x84 0 3 0x7c 0) = 266.
Proof. split; reflexivity. Qed.
